(** * flutter-interview-prep: the site descriptors and the content corpus

    The repository is a Docusaurus site.  Its own code is declarative: a
    links module ([src/utils/links.ts]), the site configuration
    ([docusaurus.config.ts], in three versions), the sidebar descriptor
    ([sidebars.ts], in two versions) and Markdown documents with an
    optional front-matter block.

    The TypeScript object literals are embedded as terms of a small value
    syntax, evaluated in an explicit environment where the source reads
    [process.env.NODE_ENV] or [new Date()].  Object literals are kept as
    association lists in source order, so that a repeated key would be
    visible. *)

From Stdlib Require Import String Ascii List ZArith QArith Bool DecimalString Lia.
From Stdlib Require DecimalPos DecimalZ.
Import ListNotations.
Local Open Scope list_scope.
Local Open Scope string_scope.

(** ** Values of the object-literal fragment of TypeScript *)

Module Js.

Unset Elimination Schemes.

(** [Fn] is the one arrow function of the sources, which destructures two
    string properties of its argument; [Ext] is a value imported from a
    package outside the repository, named by its access path. *)
Inductive value : Type :=
| Str (s : string)
| Num (q : Q)
| Bool (b : bool)
| Arr (xs : list value)
| Obj (fields : list (string * value))
| Fn (f : string -> string -> string)
| Ext (path : list string).

Set Elimination Schemes.

(** Induction over the nesting of arrays and objects. *)
Section Induction.
Variable P : value -> Prop.
Hypothesis HStr : forall s, P (Str s).
Hypothesis HNum : forall q, P (Num q).
Hypothesis HBool : forall b, P (Bool b).
Hypothesis HArr : forall xs, Forall P xs -> P (Arr xs).
Hypothesis HObj : forall fs, Forall (fun kv => P (snd kv)) fs -> P (Obj fs).
Hypothesis HFn : forall f, P (Fn f).
Hypothesis HExt : forall p, P (Ext p).

Fixpoint value_ind (v : value) : P v :=
  match v with
  | Str s => HStr s
  | Num q => HNum q
  | Bool b => HBool b
  | Arr xs =>
      HArr xs
        ((fix elems (l : list value) : Forall P l :=
            match l with
            | [] => Forall_nil P
            | x :: l' => Forall_cons x (value_ind x) (elems l')
            end) xs)
  | Obj fs =>
      HObj fs
        ((fix props (l : list (string * value))
            : Forall (fun kv => P (snd kv)) l :=
            match l with
            | [] => Forall_nil _
            | kv :: l' =>
                Forall_cons (P := fun kv => P (snd kv)) kv
                  (value_ind (snd kv)) (props l')
            end) fs)
  | Fn f => HFn f
  | Ext p => HExt p
  end.
End Induction.

(** The keys of an object literal, in source order. *)
Definition keys (v : value) : list string :=
  match v with
  | Obj fs => map fst fs
  | _ => []
  end.

(** Property read [v.k].  In an object literal a later occurrence of a
    key overwrites an earlier one, so the last binding is the one read. *)
Definition get (k : string) (v : value) : option value :=
  match v with
  | Obj fs =>
      fold_left
        (fun acc kv => if String.eqb k (fst kv) then Some (snd kv) else acc)
        fs None
  | _ => None
  end.

(** Chained property read [v.k1.k2...]. *)
Fixpoint path (ks : list string) (v : value) : option value :=
  match ks with
  | [] => Some v
  | k :: ks' =>
      match get k v with
      | Some w => path ks' w
      | None => None
      end
  end.

(** The elements of an array that may be absent. *)
Definition elements (o : option value) : list value :=
  match o with
  | Some (Arr xs) => xs
  | _ => []
  end.

(** Decimal rendering of an integral number inside a template literal. *)
Definition toString (n : Z) : string :=
  NilZero.string_of_int (Z.to_int n).

(** Direct containment, and containment at any depth. *)
Inductive child : value -> value -> Prop :=
| child_elem x xs : In x xs -> child x (Arr xs)
| child_prop k x fs : In (k, x) fs -> child x (Obj fs).

Inductive within : value -> value -> Prop :=
| within_here v : within v v
| within_step u w v : within u w -> child w v -> within u v.

(** No key occurs twice among a list of keys. *)
Fixpoint distinct (ks : list string) : bool :=
  match ks with
  | [] => true
  | k :: ks' => negb (existsb (String.eqb k) ks') && distinct ks'
  end.

(** No object literal anywhere inside [v] repeats a key. *)
Fixpoint unique_keys (v : value) : bool :=
  match v with
  | Obj fs =>
      distinct (map fst fs) && forallb (fun kv => unique_keys (snd kv)) fs
  | Arr xs => forallb unique_keys xs
  | _ => true
  end.

End Js.

Import Js.

(** ** The evaluation environment

    What the configuration reads from outside the file: the [NODE_ENV]
    variable of the process (absent or a string) and the year of the
    current date. *)

Record Env : Type := mkEnv {
  NODE_ENV : option string;
  fullYear : Z
}.

(** ** src/utils/links.ts *)

Module Links.

Definition linkedinLink := "https://www.linkedin.com/in/narayann/".
Definition githubLink := "https://github.com/narayann7".
Definition gmailLink := "mailto:social@narayann.dev".
Definition twitterLink := "https://twitter.com/narayanndev".
Definition stackoverflowLink := "https://stackoverflow.com/users/14385914/narayann".
Definition portfolioLink := "https://narayann.dev".
Definition hostedCoreURL := "https://flutterprep.narayann.dev".

(** The default export, an object of seven string properties. *)
Definition links : list (string * string) :=
  [ ("linkedinLink", linkedinLink);
    ("githubLink", githubLink);
    ("gmailLink", gmailLink);
    ("twitterLink", twitterLink);
    ("stackoverflowLink", stackoverflowLink);
    ("portfolioLink", portfolioLink);
    ("hostedCoreURL", hostedCoreURL) ].

(** Property read [links.k] from an importing module.  The type checker
    rejects a read of a property the object lacks, so the default is not
    reached by the code below (see [prop_bound]). *)
Definition prop (k : string) : string :=
  match
    fold_left
      (fun acc kv => if String.eqb k (fst kv) then Some (snd kv) else acc)
      links None
  with
  | Some s => s
  | None => "undefined"
  end.

(** The exported link constants. *)
Definition constants : list string := map snd links.

End Links.

(** ** docusaurus.config.ts *)

Module DocusaurusConfig.

Definition isDev (e : Env) : bool :=
  match NODE_ENV e with
  | Some s => String.eqb s "development"
  | None => false
  end.

Definition config (e : Env) : value :=
  Obj [
    ("title", Str "Flutter Interview Prep");
    ("tagline", Str "Curated Flutter interview questions and answers.");
    ("favicon", Str "img/favicon.ico");
    ("future", Obj [("v4", Bool true)]);
    ("url", Str "https://narayann.dev");
    ("baseUrl", Str (if isDev e then "/" else "/flutter-interview-prep/"));
    ("organizationName", Str "narayann7");
    ("projectName", Str "flutter-interview-prep");
    ("deploymentBranch", Str "gh-pages");
    ("trailingSlash", Bool false);
    ("onBrokenLinks", Str "warn");
    ("onBrokenMarkdownLinks", Str "warn");
    ("i18n", Obj [
      ("defaultLocale", Str "en");
      ("locales", Arr [Str "en"])
    ]);
    ("presets", Arr [
      Arr [
        Str "classic";
        Obj [
          ("docs", Obj [
            ("sidebarPath", Str "./sidebars.ts");
            ("editUrl",
              Str "https://github.com/narayann7/flutter-interview-prep/edit/main/")
          ]);
          ("blog", Bool false);
          ("theme", Obj [
            ("customCss", Str "./src/css/custom.css")
          ]);
          ("sitemap", Obj [
            ("changefreq", Str "weekly");
            ("priority", Num 0.5);
            ("filename", Str "sitemap.xml")
          ])
        ]
      ]
    ]);
    ("themeConfig", Obj [
      ("image", Str "img/social-card.jpg");
      ("colorMode", Obj [
        ("respectPrefersColorScheme", Bool true)
      ]);
      ("navbar", Obj [
        ("title", Str "Flutter Interview Prep");
        ("logo", Obj [
          ("alt", Str "Flutter Interview Prep Logo");
          ("src", Str "img/logo.svg")
        ]);
        ("items", Arr [
          Obj [
            ("href", Str "https://github.com/narayann7/flutter-interview-prep");
            ("label", Str "GitHub");
            ("position", Str "right")
          ]
        ])
      ]);
      ("footer", Obj [
        ("style", Str "dark");
        ("links", Arr [
          Obj [
            ("title", Str "Docs");
            ("items", Arr [Obj [("label", Str "Start"); ("to", Str "/docs/intro")]])
          ];
          Obj [
            ("title", Str "Community");
            ("items", Arr [
              Obj [("label", Str "Stack Overflow");
                   ("href", Str "https://stackoverflow.com/questions/tagged/flutter")];
              Obj [("label", Str "Twitter"); ("href", Str "https://x.com/docusaurus")]
            ])
          ]
        ]);
        ("copyright",
          Str ("Copyright © " ++ toString (fullYear e)
               ++ " Narayann. Built with Docusaurus."))
      ]);
      ("prism", Obj [
        ("theme", Ext ["prismThemes"; "github"]);
        ("darkTheme", Ext ["prismThemes"; "dracula"])
      ]);
      ("metadata", Arr [
        Obj [
          ("name", Str "description");
          ("content",
            Str "Prepare for your Flutter interviews with curated questions and answers.")
        ];
        Obj [
          ("name", Str "keywords");
          ("content", Str "Flutter, Dart, interview questions, SDE, coding prep")
        ]
      ])
    ])
  ].

End DocusaurusConfig.

(** ** The configuration of src/unnamed/part_004 *)

Module Part004.

Definition config (e : Env) : value :=
  Obj [
    ("title", Str "Flutter Interview Prep");
    ("tagline", Str "Curated Flutter interview questions and answers.");
    ("favicon", Str "img/flutter/icon_flutter.png");
    ("future", Obj [("v4", Bool true)]);
    ("url", Str (Links.prop "hostedCoreURL"));
    ("baseUrl", Str "/");
    ("organizationName", Str "narayann7");
    ("projectName", Str "flutter-interview-prep");
    ("deploymentBranch", Str "main");
    ("trailingSlash", Bool false);
    ("onBrokenLinks", Str "warn");
    ("onBrokenMarkdownLinks", Str "warn");
    ("i18n", Obj [("defaultLocale", Str "en"); ("locales", Arr [Str "en"])]);
    ("presets", Arr [
      Arr [
        Str "classic";
        Obj [
          ("docs", Obj [
            ("sidebarPath", Str "./sidebars.ts");
            ("editUrl",
              Str "https://github.com/narayann7/flutter-interview-prep/edit/main/")
          ]);
          ("blog", Bool false);
          ("theme", Obj [
            ("customCss", Str "./src/css/custom.css")
          ]);
          ("sitemap", Obj [
            ("changefreq", Str "weekly");
            ("priority", Num 0.5);
            ("filename", Str "sitemap.xml")
          ])
        ]
      ]
    ]);
    ("themeConfig", Obj [
      ("image", Str "img/social-card.jpg");
      ("colorMode", Obj [
        ("respectPrefersColorScheme", Bool true);
        ("defaultMode", Str "dark")
      ]);
      ("navbar", Obj [
        ("title", Str "Flutter Interview Prep");
        ("logo", Obj [
          ("alt", Str "Flutter Interview Prep Logo");
          ("src", Str "img/flutter/icon_flutter.svg")
        ]);
        ("items", Arr [
          Obj [
            ("href", Str (Links.prop "githubLink" ++ "/flutter-interview-prep"));
            ("label", Str "GitHub");
            ("position", Str "right")
          ];
          Obj [
            ("href", Str (Links.prop "gmailLink"));
            ("label", Str "Contact");
            ("position", Str "right")
          ]
        ])
      ]);
      ("prism", Obj [
        ("theme", Ext ["prismThemes"; "oceanicNext"]);
        ("darkTheme", Ext ["prismThemes"; "oceanicNext"]);
        ("additionalLanguages", Arr [Str "dart"; Str "java"; Str "graphql"])
      ]);
      ("metadata", Arr [
        Obj [
          ("name", Str "description");
          ("content",
            Str "Prepare for your Flutter interviews with curated questions, answers, and topic guides. Built for SDE2 aspirants and Flutter developers.")
        ];
        Obj [
          ("name", Str "keywords");
          ("content",
            Str "Flutter, Dart, interview questions, SDE, coding prep, DSA, software developer, mobile app, technical interview, flutter web")
        ];
        Obj [("name", Str "author"); ("content", Str "Narayann Dev")];
        Obj [("name", Str "robots"); ("content", Str "index, follow")];
        Obj [("property", Str "og:title"); ("content", Str "Flutter Interview Prep Guide")];
        Obj [
          ("property", Str "og:description");
          ("content",
            Str "Curated Flutter interview questions and detailed answers for aspiring SDE2 and mobile developers.")
        ];
        Obj [("property", Str "og:type"); ("content", Str "website")];
        Obj [("property", Str "og:url"); ("content", Str (Links.prop "hostedCoreURL"))]
      ])
    ])
  ].

End Part004.

(** ** The configuration of src/unnamed/part_005

    [satisfies] clauses are type annotations and leave no trace in the
    value; [coreDomainUrl] is declared and not used, as in the source. *)

Module Part005.

Definition coreDomainUrl := "https://narayann.dev".
Definition baseGitHubUrl := "https://github.com/narayann7/".

Definition config (e : Env) : value :=
  Obj [
    ("title", Str "Flutter Interview Prep");
    ("tagline",
      Str "Prepare for your Flutter interviews with curated questions and answers.");
    ("favicon", Str "img/favicon.ico");
    ("future", Obj [("v4", Bool true)]);
    ("url", Str "https://narayann7.github.io");
    ("baseUrl", Str "/flutter-interview-prep/");
    ("organizationName", Str "narayann7");
    ("projectName", Str "flutter-interview-prep");
    ("onBrokenLinks", Str "throw");
    ("i18n", Obj [
      ("defaultLocale", Str "en");
      ("locales", Arr [Str "en"])
    ]);
    ("presets", Arr [
      Arr [
        Str "classic";
        Obj [
          ("docs", Obj [
            ("sidebarPath", Str "./sidebars.ts");
            ("editUrl",
              Fn (fun versionDocsDirPath docPath =>
                    baseGitHubUrl ++ "flutter-interview-prep/blob/main/"
                    ++ versionDocsDirPath ++ "/" ++ docPath))
          ]);
          ("theme", Obj [
            ("customCss", Str "./src/css/custom.css")
          ])
        ]
      ]
    ]);
    ("themeConfig", Obj [
      ("image", Str "img/docusaurus-social-card.jpg");
      ("colorMode", Obj [
        ("respectPrefersColorScheme", Bool true)
      ]);
      ("navbar", Obj [
        ("title", Str "Flutter Interview Prep");
        ("logo", Obj [
          ("alt", Str "Flutter Interview Prep Logo");
          ("src", Str "img/logo.svg")
        ]);
        ("items", Arr [
          Obj [
            ("href", Str (baseGitHubUrl ++ "flutter-interview-prep"));
            ("label", Str "GitHub");
            ("position", Str "right")
          ]
        ])
      ]);
      ("footer", Obj [
        ("style", Str "dark");
        ("links", Arr [
          Obj [
            ("title", Str "Docs");
            ("items", Arr [Obj [("label", Str "Intro"); ("to", Str "/docs/intro")]])
          ];
          Obj [
            ("title", Str "Community");
            ("items", Arr [
              Obj [("label", Str "Stack Overflow");
                   ("href", Str "https://stackoverflow.com/questions/tagged/docusaurus")];
              Obj [("label", Str "Discord");
                   ("href", Str "https://discordapp.com/invite/docusaurus")];
              Obj [("label", Str "X"); ("href", Str "https://x.com/docusaurus")]
            ])
          ]
        ]);
        ("copyright",
          Str ("Copyright © " ++ toString (fullYear e)
               ++ " Narayan N. Built with Docusaurus."))
      ]);
      ("prism", Obj [
        ("theme", Ext ["prismThemes"; "github"]);
        ("darkTheme", Ext ["prismThemes"; "dracula"])
      ])
    ])
  ].

End Part005.

(** The versions of the site configuration present in the repository. *)
Definition config_versions : list (Env -> value) :=
  [DocusaurusConfig.config; Part004.config; Part005.config].

(** ** sidebars.ts

    The categories written as comments in the source are not part of the
    exported object and are left out. *)

Module SidebarsTs.

Definition sidebars : value :=
  Obj [
    ("tutorialSidebar", Arr [
      Obj [
        ("type", Str "doc");
        ("id", Str "welcome");
        ("label", Str "Welcome")
      ];
      Obj [
        ("type", Str "category");
        ("label", Str "Fundamentals");
        ("items", Arr [
          Str "fundamentals/widgets_overview";
          Str "fundamentals/stateless_vs_stateful";
          Str "fundamentals/buildcontext_and_lifecycle";
          Str "fundamentals/keys_in_flutter";
          Str "fundamentals/container_const_explained"
        ])
      ]
    ])
  ].

End SidebarsTs.

(** ** The sidebar descriptor of src/unnamed/part_003 *)

Module Part003.

Definition sidebars : value :=
  Obj [
    ("tutorialSidebar", Arr [
      Obj [
        ("type", Str "doc");
        ("id", Str "welcome");
        ("label", Str "Welcome")
      ];
      Obj [
        ("type", Str "category");
        ("label", Str "Fundamentals");
        ("items", Arr [
          Str "fundamentals/widgets_overview";
          Str "fundamentals/stateless_vs_stateful";
          Str "fundamentals/buildcontext_and_lifecycle";
          Str "fundamentals/keys_in_flutter";
          Str "fundamentals/container_const_explained"
        ])
      ];
      Obj [
        ("type", Str "category");
        ("label", Str "Layouts & Rendering");
        ("items", Arr [
          Str "layouts_and_rendering/repaint_boundary";
          Str "layouts_and_rendering/flexible_and_flex";
          Str "layouts_and_rendering/custom_paint_and_canvas";
          Str "layouts_and_rendering/performance_optimization_tips"
        ])
      ];
      Obj [
        ("type", Str "category");
        ("label", Str "Dart Language Concepts");
        ("items", Arr [
          Str "dart_language_concepts/mixins_in_dart";
          Str "dart_language_concepts/iterables_vs_lists";
          Str "dart_language_concepts/async_asyncstar_syncstar";
          Str "dart_language_concepts/throttle_vs_debounce"
        ])
      ];
      Obj [
        ("type", Str "category");
        ("label", Str "Architecture & Engine");
        ("items", Arr [
          Str "architecture_and_engine/flutter_engine_internals";
          Str "architecture_and_engine/tree_shaking";
          Str "architecture_and_engine/build_modes";
          Str "architecture_and_engine/state_in_flutter";
          Str "architecture_and_engine/flutter_trees_and_rendering_pipeline"
        ])
      ];
      Obj [
        ("type", Str "category");
        ("label", Str "Packages & Plugins");
        ("items", Arr [
          Str "packages_and_plugins/difference_packages_plugins";
          Str "packages_and_plugins/dependency_management_best_practices"
        ])
      ];
      Obj [
        ("type", Str "category");
        ("label", Str "State Management");
        ("items", Arr [
          Str "state_management/stateful_widget_lifecycle";
          Str "state_management/provider_and_inheritedwidget";
          Str "state_management/bloc_and_riverpod_intro";
          Str "state_management/comparison_of_state_management"
        ])
      ];
      Obj [
        ("type", Str "category");
        ("label", Str "Streams & Async Programming");
        ("items", Arr [
          Str "streams_and_async/streams_basics";
          Str "streams_and_async/stream_transformers";
          Str "streams_and_async/streambuilder_widget";
          Str "streams_and_async/best_practices_for_streams"
        ])
      ];
      Obj [
        ("type", Str "category");
        ("label", Str "Links & Navigation");
        ("items", Arr [
          Str "links_and_navigation/deep_linking";
          Str "links_and_navigation/dynamic_linking";
          Str "links_and_navigation/navigation_and_routes"
        ])
      ];
      Obj [
        ("type", Str "category");
        ("label", Str "Advanced Topics");
        ("items", Arr [
          Str "advanced_topics/custom_widget_examples";
          Str "advanced_topics/animation_with_custompaint";
          Str "advanced_topics/app_lifecycle_states";
          Str "advanced_topics/flutter_performance_insights"
        ])
      ]
    ])
  ].

End Part003.

(** The versions of the sidebar descriptor present in the repository. *)
Definition sidebar_versions : list value :=
  [SidebarsTs.sidebars; Part003.sidebars].

(** ** The content corpus

    Every Markdown document of the repository, with the front-matter block
    it opens with, if any.  A block is the YAML mapping between a leading
    [---] line and the next one, kept in source order.  Several source
    files hold more than one document; [part] counts them from 0. *)

Module Docs.

Inductive yaml : Type :=
| YStr (s : string)
| YInt (n : Z)
| YSeq (xs : list string).

Record ContentFile : Type := mkContentFile {
  source : string;
  part : nat;
  front_matter : option (list (string * yaml))
}.

Definition welcome_0 : ContentFile :=
  mkContentFile "docs/welcome.md" 0
    (Some [ ("id", YStr "intro");
            ("title", YStr "🚀 Welcome");
            ("sidebar_position", YInt 1) ]).

Definition welcome_1 : ContentFile :=
  mkContentFile "docs/welcome.md" 1
    (Some [ ("id", YStr "welcome");
            ("title", YStr "Welcome");
            ("sidebar_position", YInt 1) ]).

Definition keypoints_0 : ContentFile :=
  mkContentFile "docs/cs/nextjs/keypoints.md" 0 None.

Definition keypoints_1 : ContentFile :=
  mkContentFile "docs/cs/nextjs/keypoints.md" 1 None.

Definition android : ContentFile :=
  mkContentFile "docs/cs/mobile apps/android.md" 0 None.

Definition graphql_0 : ContentFile :=
  mkContentFile "docs/cs/backend/graphql.md" 0 None.

Definition graphql_1 : ContentFile :=
  mkContentFile "docs/cs/backend/graphql.md" 1 None.

Definition soild : ContentFile :=
  mkContentFile "docs/cs/system design/concepts/soild.md" 0 None.

Definition java_string_0 : ContentFile :=
  mkContentFile
    "docs/cs/languages/java/String, StringBuffer and StringBuilder.md" 0 None.

Definition java_string_1 : ContentFile :=
  mkContentFile
    "docs/cs/languages/java/String, StringBuffer and StringBuilder.md" 1
    (Some [ ("id", YStr "flutter_trees_and_rendering_pipeline");
            ("title", YStr "Flutter Trees and Rendering Pipeline");
            ("sidebar_label", YStr "Flutter Trees and Rendering");
            ("sidebar_position", YInt 2);
            ("tags", YSeq ["Advanced"; "Rendering"; "Architecture"; "Important"]);
            ("description",
              YStr "A deep dive into Flutter's Widget, Element, Render, and Layer trees and how they interact within the rendering pipeline.");
            ("keywords",
              YSeq ["Flutter"; "Widget Tree"; "Render Tree"; "Element Tree";
                    "Layer Tree"; "Rendering"; "Architecture"]) ]).

Definition part_000 : ContentFile :=
  mkContentFile "unnamed/part_000" 0
    (Some [ ("id", YStr "buildcontext_and_lifecycle");
            ("title", YStr "BuildContext and Lifecycle");
            ("sidebar_label", YStr "BuildContext and Lifecycle");
            ("sidebar_position", YInt 1);
            ("tags", YSeq ["Intermediate"; "Widgets"]);
            ("description",
              YStr "Explanation of BuildContext and the widget lifecycle in Flutter.");
            ("keywords", YSeq ["Flutter"; "BuildContext"; "Lifecycle"]) ]).

Definition part_001 : ContentFile :=
  mkContentFile "unnamed/part_001" 0 None.

Definition part_002 : ContentFile :=
  mkContentFile "unnamed/part_002" 0 None.

Definition corpus : list ContentFile :=
  [ welcome_0; welcome_1; keypoints_0; keypoints_1; android;
    graphql_0; graphql_1; soild; java_string_0; java_string_1;
    part_000; part_001; part_002 ].

(** The fields a front-matter block declares. *)
Definition fields (d : ContentFile) : list string :=
  match front_matter d with
  | Some fm => map fst fm
  | None => []
  end.

(** The value a block gives to a field. *)
Definition field (k : string) (fm : list (string * yaml)) : option yaml :=
  fold_left
    (fun acc kv => if String.eqb k (fst kv) then Some (snd kv) else acc)
    fm None.

(** The identifier a document declares. *)
Definition declared_id (d : ContentFile) : option string :=
  match front_matter d with
  | Some fm =>
      match field "id" fm with
      | Some (YStr s) => Some s
      | _ => None
      end
  | None => None
  end.

Definition declared_ids (ds : list ContentFile) : list string :=
  flat_map (fun d => match declared_id d with Some s => [s] | None => [] end) ds.

End Docs.

Import Docs.

(** ** Reading the descriptors *)

(** [s] begins with [p]. *)
Definition starts_with (p s : string) : Prop := exists r, s = p ++ r.

(** An absolute URL of the two schemes the site uses. *)
Definition absolute_url (s : string) : Prop :=
  starts_with "https://" s \/ starts_with "mailto:" s.

Definition absolute_urlb (s : string) : bool :=
  String.prefix "https://" s || String.prefix "mailto:" s.

(** A path relative to the root of the site. *)
Definition site_relative (s : string) : Prop := starts_with "/" s.

(** *** Navbar and footer items of a configuration *)

Definition navbar_items (cfg : value) : list value :=
  elements (path ["themeConfig"; "navbar"; "items"] cfg).

(** The footer holds columns, each with its own list of items. *)
Definition footer_items (cfg : value) : list value :=
  flat_map (fun column => elements (get "items" column))
    (elements (path ["themeConfig"; "footer"; "links"] cfg)).

Definition link_items (cfg : value) : list value :=
  (navbar_items cfg ++ footer_items cfg)%list.

(** An item links either through an absolute [href] or through a
    site-relative [to], and carries only one of the two. *)
Definition link_ok (item : value) : Prop :=
  (exists h, get "href" item = Some (Str h) /\ absolute_url h
             /\ get "to" item = None)
  \/ (exists t, get "to" item = Some (Str t) /\ site_relative t
                /\ get "href" item = None).

Definition link_okb (item : value) : bool :=
  match get "href" item, get "to" item with
  | Some (Str h), None => absolute_urlb h
  | None, Some (Str t) => String.prefix "/" t
  | _, _ => false
  end.

(** *** Broken-link settings *)

Definition broken_links_warn (cfg : value) : Prop :=
  get "onBrokenLinks" cfg = Some (Str "warn")
  /\ get "onBrokenMarkdownLinks" cfg = Some (Str "warn").

(** *** Entries of a sidebar *)

Definition entries (sb : value) : list value :=
  elements (get "tutorialSidebar" sb).

(** The strings of an array of string literals. *)
Fixpoint strings (xs : list value) : option (list string) :=
  match xs with
  | [] => Some []
  | Str s :: xs' => option_map (cons s) (strings xs')
  | _ :: _ => None
  end.

Definition has_type (t : string) (v : value) : bool :=
  match get "type" v with
  | Some (Str s) => String.eqb s t
  | _ => false
  end.

(** A doc entry, read as its id and label. *)
Definition doc_entry (v : value) : option (string * string) :=
  if has_type "doc" v then
    match get "id" v, get "label" v with
    | Some (Str i), Some (Str l) => Some (i, l)
    | _, _ => None
    end
  else None.

(** A category, read as its label and its ordered items. *)
Definition category (v : value) : option (string * list string) :=
  if has_type "category" v then
    match get "label" v, get "items" v with
    | Some (Str l), Some (Arr xs) => option_map (pair l) (strings xs)
    | _, _ => None
    end
  else None.

Definition doc_ids (sb : value) : list string :=
  flat_map (fun v => match doc_entry v with Some (i, _) => [i] | None => [] end)
    (entries sb).

Definition category_labels (vs : list value) : list string :=
  flat_map (fun v => match category v with Some (l, _) => [l] | None => [] end) vs.

Definition category_items (sb : value) : list string :=
  flat_map (fun v => match category v with Some (_, xs) => xs | None => [] end)
    (entries sb).

(** Every document identifier a sidebar refers to. *)
Definition referenced_ids (sb : value) : list string :=
  (doc_ids sb ++ category_items sb)%list.

(** *** Identifiers and the corpus *)

(** Some content file of the corpus declares [i] as its id. *)
Definition resolves (i : string) : Prop :=
  exists d, In d corpus /\ declared_id d = Some i.

Definition resolvesb (i : string) : bool :=
  existsb (String.eqb i) (declared_ids corpus).

(** The segments of an identifier between its slashes. *)
Fixpoint segments (s : string) : list string :=
  match s with
  | EmptyString => [""]
  | String c s' =>
      if Ascii.eqb c "/"%char then "" :: segments s'
      else match segments s' with
           | h :: t => String c h :: t
           | [] => [String c ""]
           end
  end.

(** The last segment of an identifier. *)
Definition basename (s : string) : string := last (segments s) "".

(** An identifier of the form [directory/name]. *)
Definition qualified (i : string) : Prop :=
  exists dir name,
    i = dir ++ "/" ++ name /\ segments i = [dir; name]
    /\ dir <> "" /\ name <> "".

Definition qualifiedb (i : string) : bool :=
  match segments i with
  | [dir; name] => negb (String.eqb dir "") && negb (String.eqb name "")
  | _ => false
  end.

(** *** Front-matter fields *)

(** The fields the specification lists for content files. *)
Definition spec_fields : list string :=
  ["id"; "title"; "sidebar_position"; "tags"; "description"; "keywords"].

(** *** Environments used as concrete inputs *)

Definition dev_2025 : Env := mkEnv (Some "development") 2025.
Definition prod_2025 : Env := mkEnv (Some "production") 2025.
Definition prod_2026 : Env := mkEnv (Some "production") 2026.
Definition unset_2026 : Env := mkEnv None 2026.

(** ** Further readings of the descriptors *)

(** Array read [v[n]]. *)
Definition index (n : nat) (v : value) : option value :=
  match v with
  | Arr xs => nth_error xs n
  | _ => None
  end.

(** A chained read that ends on a string. *)
Definition string_at (ks : list string) (v : value) : option string :=
  match path ks v with
  | Some (Str s) => Some s
  | _ => None
  end.

(** The first preset of a configuration is the pair [presets[0]] of a
    name and an options object. *)
Definition preset (cfg : value) : option value :=
  match get "presets" cfg with
  | Some ps => index 0 ps
  | None => None
  end.

Definition preset_name (cfg : value) : option value :=
  match preset cfg with
  | Some p => index 0 p
  | None => None
  end.

Definition preset_options (cfg : value) : option value :=
  match preset cfg with
  | Some p => index 1 p
  | None => None
  end.

(** The [docs.editUrl] option of the preset: a string or a function. *)
Definition edit_url (cfg : value) : option value :=
  match preset_options cfg with
  | Some o => path ["docs"; "editUrl"] o
  | None => None
  end.

(** The first item of a list that carries the label [l]. *)
Definition labelled (l : string) (items : list value) : option value :=
  find
    (fun item =>
       match get "label" item with
       | Some (Str s) => String.eqb s l
       | _ => false
       end)
    items.

(** The address behind the GitHub item of the navbar. *)
Definition github_href (cfg : value) : option string :=
  match labelled "GitHub" (navbar_items cfg) with
  | Some item => string_at ["href"] item
  | None => None
  end.

(** The labels of a list of items; an item without a label gives none. *)
Definition labels (items : list value) : list string :=
  flat_map
    (fun item => match get "label" item with Some (Str s) => [s] | _ => [] end)
    items.

(** The address an item links to, through [href] or through [to]. *)
Definition target (item : value) : option string :=
  match get "href" item with
  | Some (Str h) => Some h
  | _ => string_at ["to"] item
  end.

Definition targets (items : list value) : list string :=
  flat_map (fun item => match target item with Some t => [t] | None => [] end)
    items.

(** The footer copyright line. *)
Definition copyright (cfg : value) : option string :=
  string_at ["themeConfig"; "footer"; "copyright"] cfg.

(** The meta tags of the theme configuration. *)
Definition metadata (cfg : value) : list value :=
  elements (path ["themeConfig"; "metadata"] cfg).

(** A meta tag, read as its identifier ([name] or [property], never both)
    and its content. *)
Definition meta_tag (m : value) : option (string * string) :=
  match get "name" m, get "property" m, get "content" m with
  | Some (Str n), None, Some (Str c) => Some (n, c)
  | None, Some (Str p), Some (Str c) => Some (p, c)
  | _, _, _ => None
  end.

Definition meta_ids (ms : list value) : list string :=
  flat_map (fun m => match meta_tag m with Some (i, _) => [i] | None => [] end) ms.

(** The content of the first meta tag identified by [i]. *)
Definition meta_content (i : string) (ms : list value) : option string :=
  match
    find
      (fun m => match meta_tag m with
                | Some (j, _) => String.eqb j i
                | None => false
                end)
      ms
  with
  | Some m => option_map snd (meta_tag m)
  | None => None
  end.

(** The doc entries of a sidebar, as pairs of id and label. *)
Definition doc_entries (sb : value) : list (string * string) :=
  flat_map (fun v => match doc_entry v with Some p => [p] | None => [] end)
    (entries sb).

(** The items of the categories of a sidebar, each with the label of its
    category. *)
Definition labelled_items (sb : value) : list (string * string) :=
  flat_map
    (fun v =>
       match category v with
       | Some (l, xs) => map (pair l) xs
       | None => []
       end)
    (entries sb).

(** The first segment of an identifier. *)
Definition directory (i : string) : string := hd "" (segments i).

(** The title a content file declares. *)
Definition declared_title (d : ContentFile) : option string :=
  match front_matter d with
  | Some fm =>
      match field "title" fm with
      | Some (YStr s) => Some s
      | _ => None
      end
  | None => None
  end.

(** The shape of the value of a front-matter field: text for id, title,
    sidebar_label and description, a positive integer for
    sidebar_position, a sequence with at least one element and no empty
    element for tags and keywords. *)
Definition field_shape (k : string) (y : yaml) : bool :=
  if existsb (String.eqb k) ["id"; "title"; "sidebar_label"; "description"]
  then match y with YStr s => negb (String.eqb s "") | _ => false end
  else if String.eqb k "sidebar_position"
  then match y with YInt n => (0 <? n)%Z | _ => false end
  else if existsb (String.eqb k) ["tags"; "keywords"]
  then match y with
       | YSeq (x :: xs) => forallb (fun s => negb (String.eqb s "")) (x :: xs)
       | _ => false
       end
  else false.

(** Reading a year back from its decimal rendering. *)
Definition parse_year (s : string) : option Z :=
  option_map Z.of_int (NilZero.int_of_string s).

(** * Properties *)

(** ** Keys of object literals *)

Section Keys.

Lemma existsb_eqb_In (k : string) (ks : list string) :
  existsb (String.eqb k) ks = true <-> In k ks.
Proof.
  rewrite existsb_exists. split.
  - intros [x [Hx Heq]]. apply String.eqb_eq in Heq. now subst.
  - intros H. exists k. split; [assumption | apply String.eqb_refl].
Qed.

Lemma distinct_NoDup (ks : list string) :
  distinct ks = true <-> NoDup ks.
Proof.
  induction ks as [| k ks IH]; simpl.
  - split; [constructor | reflexivity].
  - rewrite andb_true_iff, negb_true_iff, IH. split.
    + intros [Hk Hks]. constructor; [| assumption].
      intros Hin. apply existsb_eqb_In in Hin. congruence.
    + intros H. inversion H as [| ? ? Hk Hks]; subst. split; [| assumption].
      destruct (existsb (String.eqb k) ks) eqn:E; [| reflexivity].
      apply existsb_eqb_In in E. contradiction.
Qed.

Lemma unique_keys_child (w v : value) :
  child w v -> unique_keys v = true -> unique_keys w = true.
Proof.
  intros Hc Hv. destruct Hc as [x xs Hin | k x fs Hin]; simpl in Hv.
  - rewrite forallb_forall in Hv. now apply Hv.
  - apply andb_true_iff in Hv. destruct Hv as [_ Hv].
    rewrite forallb_forall in Hv. exact (Hv (k, x) Hin).
Qed.

Lemma unique_keys_within (u v : value) :
  within u v -> unique_keys v = true -> unique_keys u = true.
Proof.
  induction 1 as [v | u w v _ IH Hc]; intros Hv.
  - assumption.
  - apply IH. exact (unique_keys_child w v Hc Hv).
Qed.

(** The check is exact: it succeeds if and only if every object literal
    found at any depth has pairwise distinct keys. *)
Lemma unique_keys_spec (v : value) :
  unique_keys v = true
  <-> forall fs, within (Obj fs) v -> NoDup (map fst fs).
Proof.
  split.
  - intros Hv fs Hw. apply distinct_NoDup.
    pose proof (unique_keys_within _ _ Hw Hv) as H. simpl in H.
    now apply andb_true_iff in H.
  - induction v as [s | q | b | xs IH | fs IH | f | p]
      using value_ind; intros H; simpl; try reflexivity.
    + apply forallb_forall. intros x Hin.
      rewrite Forall_forall in IH. apply (IH x Hin).
      intros fs Hw. apply H.
      apply within_step with (w := x); [assumption | now constructor].
    + apply andb_true_iff. split.
      * apply distinct_NoDup, H. constructor.
      * apply forallb_forall. intros [k x] Hin.
        rewrite Forall_forall in IH. apply (IH (k, x) Hin).
        intros fs' Hw. apply H.
        apply within_step with (w := x); [assumption |].
        now apply child_prop with (k := k).
Qed.

(** Two objects with the same keys read alike at [k] when their values
    agree wherever the key is [k]. *)
Lemma get_agree (k : string) (fs1 fs2 : list (string * value)) :
  Forall2
    (fun a b => fst a = fst b /\ (fst a = k -> snd a = snd b)) fs1 fs2 ->
  get k (Obj fs1) = get k (Obj fs2).
Proof.
  unfold get. generalize (@None value).
  intros acc H. revert acc.
  induction H as [| a b l1 l2 [Hk Hv] _ IH]; intros acc; simpl.
  - reflexivity.
  - rewrite <- Hk. destruct (String.eqb k (fst a)) eqn:E.
    + apply String.eqb_eq in E. rewrite <- (Hv (eq_sym E)). apply IH.
    + apply IH.
Qed.

End Keys.

(** ** Prefixes and links *)

(** The reads of the links object made by the configuration of part_004
    each find their property. *)
Lemma prop_bound :
  Links.prop "hostedCoreURL" = Links.hostedCoreURL
  /\ Links.prop "githubLink" = Links.githubLink
  /\ Links.prop "gmailLink" = Links.gmailLink.
Proof. repeat split; reflexivity. Qed.

Section Prefixes.

Lemma prefix_starts_with (p s : string) :
  String.prefix p s = true <-> starts_with p s.
Proof.
  revert s. induction p as [| c p IH]; intros s; simpl.
  - split; [| now destruct s]. intros _. now exists s.
  - destruct s as [| d s].
    + simpl. split; [discriminate | intros [r Hr]; discriminate].
    + simpl. destruct (Ascii.ascii_dec c d) as [-> | Hne].
      * rewrite IH. split; intros [r Hr]; exists r.
        -- simpl. now rewrite Hr.
        -- simpl in Hr. now injection Hr.
      * split; [discriminate |].
        intros [r Hr]. simpl in Hr. injection Hr as Hcd _. congruence.
Qed.

Lemma absolute_urlb_sound (s : string) :
  absolute_urlb s = true -> absolute_url s.
Proof.
  unfold absolute_urlb, absolute_url. intros H.
  apply orb_true_iff in H.
  destruct H as [H | H]; [left | right]; now apply prefix_starts_with.
Qed.

Lemma link_okb_sound (item : value) :
  link_okb item = true -> link_ok item.
Proof.
  unfold link_okb, link_ok.
  destruct (get "href" item) as [[h | | | | | |] |];
    destruct (get "to" item) as [[t | | | | | |] |];
    try discriminate; intros H.
  - left. exists h. repeat split. now apply absolute_urlb_sound.
  - right. exists t. repeat split. now apply prefix_starts_with.
Qed.

End Prefixes.

(** ** Identifiers *)

Section Identifiers.

Lemma segments_not_nil (s : string) : segments s <> [].
Proof.
  destruct s as [| c s]; simpl; [discriminate |].
  destruct (Ascii.eqb c "/"); [discriminate |].
  destruct (segments s); discriminate.
Qed.

Lemma segments_one (s n : string) : segments s = [n] -> s = n.
Proof.
  revert n. induction s as [| c s IH]; intros n; simpl.
  - now intros [= <-].
  - destruct (Ascii.eqb c "/").
    + intros [= _ H]. now apply segments_not_nil in H.
    + destruct (segments s) as [| h t] eqn:E.
      * now apply segments_not_nil in E.
      * intros [= <- ->]. now rewrite (IH h eq_refl).
Qed.

Lemma segments_two (s d n : string) :
  segments s = [d; n] -> s = d ++ "/" ++ n.
Proof.
  revert d. induction s as [| c s IH]; intros d; simpl.
  - discriminate.
  - destruct (Ascii.eqb c "/") eqn:Ec.
    + apply Ascii.eqb_eq in Ec. subst c.
      intros [= <- H]. simpl. now rewrite (segments_one _ _ H).
    + destruct (segments s) as [| h t] eqn:E.
      * now apply segments_not_nil in E.
      * intros [= <- ->]. simpl. now rewrite (IH h eq_refl).
Qed.

Lemma qualifiedb_sound (i : string) : qualifiedb i = true -> qualified i.
Proof.
  unfold qualifiedb, qualified.
  destruct (segments i) as [| d [| n [| ? ?]]] eqn:E; try discriminate.
  intros H. apply andb_true_iff in H. destruct H as [Hd Hn].
  apply negb_true_iff, String.eqb_neq in Hd.
  apply negb_true_iff, String.eqb_neq in Hn.
  exists d, n. repeat split; try assumption. now apply segments_two.
Qed.

Lemma declared_ids_spec (ds : list ContentFile) (i : string) :
  In i (declared_ids ds) <-> exists d, In d ds /\ declared_id d = Some i.
Proof.
  unfold declared_ids. rewrite in_flat_map. split.
  - intros [d [Hd Hi]]. exists d. split; [assumption |].
    destruct (declared_id d) as [j |]; simpl in Hi; [| contradiction].
    destruct Hi as [-> | []]. reflexivity.
  - intros [d [Hd Hi]]. exists d. split; [assumption |].
    rewrite Hi. now left.
Qed.

Lemma resolvesb_spec (i : string) : resolvesb i = true <-> resolves i.
Proof.
  unfold resolvesb, resolves.
  now rewrite existsb_eqb_In, declared_ids_spec.
Qed.

(** No identifier declared in the corpus contains a slash, so an
    identifier qualified by a directory is none of them. *)
Lemma declared_ids_plain :
  Forall (fun i => segments i = [i]) (declared_ids corpus).
Proof. repeat constructor. Qed.

Lemma qualified_unresolved (i : string) : qualified i -> ~ resolves i.
Proof.
  intros [d [n [_ [Hseg _]]]] Hr.
  apply resolvesb_spec, existsb_eqb_In in Hr.
  pose proof declared_ids_plain as Hp.
  rewrite Forall_forall in Hp. specialize (Hp i Hr). congruence.
Qed.

End Identifiers.

(** ** The site configuration *)

(** Case analysis on the versions of a descriptor. *)
Ltac each_version H :=
  repeat (destruct H as [<- | H]); [.. | destruct H].

(** C2, as stated, fails on the version of part_005: it sets
    [onBrokenLinks] to ['throw'] and does not set [onBrokenMarkdownLinks]. *)
Lemma broken_links_throw_in_part_005 :
  In Part005.config config_versions
  /\ get "onBrokenLinks" (Part005.config unset_2026) = Some (Str "throw")
  /\ get "onBrokenMarkdownLinks" (Part005.config unset_2026) = None
  /\ ~ broken_links_warn (Part005.config unset_2026).
Proof.
  split; [right; right; now left |].
  split; [reflexivity |]. split; [reflexivity |].
  intros [H _]. vm_compute in H. discriminate H.
Qed.

(** C2 (amended): docusaurus.config.ts and the version of part_004 set
    [onBrokenLinks] and [onBrokenMarkdownLinks] to ['warn'] in every
    environment; the version of part_005 sets [onBrokenLinks] to ['throw']
    and has no [onBrokenMarkdownLinks]. *)
Theorem broken_links_settings (e : Env) :
  broken_links_warn (DocusaurusConfig.config e)
  /\ broken_links_warn (Part004.config e)
  /\ get "onBrokenLinks" (Part005.config e) = Some (Str "throw")
  /\ get "onBrokenMarkdownLinks" (Part005.config e) = None.
Proof.
  unfold broken_links_warn. repeat split; reflexivity.
Qed.

(** C6: every version of the configuration evaluates, in every
    environment, to an object, and no object literal at any nesting level
    of it repeats a key. *)
Theorem config_keys_unique (cfg : Env -> value) (e : Env) :
  In cfg config_versions ->
  (exists fs, cfg e = Obj fs)
  /\ forall fs, within (Obj fs) (cfg e) -> NoDup (map fst fs).
Proof.
  intros H. each_version H.
  all: split; [eexists; reflexivity | apply unique_keys_spec; reflexivity].
Qed.

Lemma config_keys_unique_witness :
  In DocusaurusConfig.config config_versions
  /\ within (Obj [("defaultLocale", Str "en"); ("locales", Arr [Str "en"])])
       (DocusaurusConfig.config unset_2026)
  /\ NoDup ["defaultLocale"; "locales"].
Proof.
  assert (Hin : In DocusaurusConfig.config config_versions) by now left.
  assert (Hw : within
                 (Obj [("defaultLocale", Str "en"); ("locales", Arr [Str "en"])])
                 (DocusaurusConfig.config unset_2026)).
  { eapply within_step; [apply within_here |].
    apply child_prop with (k := "i18n"). simpl. tauto. }
  split; [exact Hin |]. split; [exact Hw |].
  exact (proj2 (config_keys_unique DocusaurusConfig.config unset_2026 Hin) _ Hw).
Defined.

(** C8: all versions of the configuration agree on the identifying
    fields: title, organizationName and projectName. *)
Theorem config_identity (cfg : Env -> value) (e : Env) :
  In cfg config_versions ->
  get "title" (cfg e) = Some (Str "Flutter Interview Prep")
  /\ get "organizationName" (cfg e) = Some (Str "narayann7")
  /\ get "projectName" (cfg e) = Some (Str "flutter-interview-prep").
Proof.
  intros H. each_version H; repeat split; reflexivity.
Qed.

Lemma config_identity_witness :
  In Part005.config config_versions
  /\ get "title" (Part005.config prod_2025) = Some (Str "Flutter Interview Prep")
  /\ get "organizationName" (Part005.config prod_2025) = Some (Str "narayann7")
  /\ get "projectName" (Part005.config prod_2025)
     = Some (Str "flutter-interview-prep").
Proof.
  assert (Hin : In Part005.config config_versions) by (right; right; now left).
  split; [exact Hin |].
  exact (config_identity Part005.config prod_2025 Hin).
Defined.

(** C9: every constant exported by the links module begins with
    [https://] or [mailto:], and every navbar or footer item of every
    version of the configuration links either through such an absolute
    [href] or through a [to] path that begins with a slash. *)
Theorem links_well_formed :
  Forall absolute_url Links.constants
  /\ forall (cfg : Env -> value) (e : Env) (item : value),
       In cfg config_versions -> In item (link_items (cfg e)) -> link_ok item.
Proof.
  split.
  - apply Forall_forall. intros s Hs. apply absolute_urlb_sound.
    assert (Hall : forallb absolute_urlb Links.constants = true) by reflexivity.
    rewrite forallb_forall in Hall. now apply Hall.
  - intros cfg e item H Hitem. apply link_okb_sound.
    assert (Hall : forallb link_okb (link_items (cfg e)) = true)
      by (each_version H; reflexivity).
    rewrite forallb_forall in Hall. now apply Hall.
Qed.

Lemma links_well_formed_witness :
  In Part004.config config_versions
  /\ In (Obj [("href", Str "mailto:social@narayann.dev");
              ("label", Str "Contact");
              ("position", Str "right")])
       (link_items (Part004.config unset_2026))
  /\ link_ok (Obj [("href", Str "mailto:social@narayann.dev");
                   ("label", Str "Contact");
                   ("position", Str "right")]).
Proof.
  assert (Hin : In Part004.config config_versions) by (right; now left).
  assert (Hitem : In (Obj [("href", Str "mailto:social@narayann.dev");
                           ("label", Str "Contact");
                           ("position", Str "right")])
                    (link_items (Part004.config unset_2026)))
    by (right; now left).
  split; [exact Hin |]. split; [exact Hitem |].
  exact (proj2 links_well_formed Part004.config unset_2026 _ Hin Hitem).
Defined.

(** *** Dependence on the environment *)

Lemma path_single (k : string) (v : value) : path [k] v = get k v.
Proof. simpl. now destruct (get k v). Qed.

Lemma path_under (k : string) (ks : list string) (v1 v2 w1 w2 : value) :
  get k v1 = Some w1 -> get k v2 = Some w2 ->
  path ks w1 = path ks w2 ->
  path (k :: ks) v1 = path (k :: ks) v2.
Proof. intros H1 H2 H. simpl. now rewrite H1, H2. Qed.

(** Two object literals with the same keys, read at a key on which their
    values agree. *)
Ltac agree :=
  apply get_agree;
  repeat (apply Forall2_cons;
          [ split;
            [ reflexivity
            | let Hk := fresh "Hk" in
              intros Hk; try reflexivity; simpl in Hk; congruence ]
          | ]);
  apply Forall2_nil.

(** C4, as stated, fails on docusaurus.config.ts: [baseUrl] follows
    [NODE_ENV] and the footer copyright follows the current year. *)
Lemma config_reads_environment :
  get "baseUrl" (DocusaurusConfig.config dev_2025) = Some (Str "/")
  /\ get "baseUrl" (DocusaurusConfig.config prod_2025)
     = Some (Str "/flutter-interview-prep/")
  /\ path ["themeConfig"; "footer"; "copyright"]
       (DocusaurusConfig.config prod_2025)
     = Some (Str "Copyright © 2025 Narayann. Built with Docusaurus.")
  /\ path ["themeConfig"; "footer"; "copyright"]
       (DocusaurusConfig.config prod_2026)
     = Some (Str "Copyright © 2026 Narayann. Built with Docusaurus.")
  /\ DocusaurusConfig.config dev_2025 <> DocusaurusConfig.config prod_2025
  /\ DocusaurusConfig.config prod_2025 <> DocusaurusConfig.config prod_2026.
Proof.
  repeat split; try reflexivity.
  - intros H. apply (f_equal (get "baseUrl")) in H.
    vm_compute in H. discriminate H.
  - intros H.
    apply (f_equal (path ["themeConfig"; "footer"; "copyright"])) in H.
    vm_compute in H. discriminate H.
Qed.

(** C4 (amended): each version of the configuration is a function of the
    environment.  Two evaluations with the same development flag and the
    same current year give the same descriptor; between any two
    evaluations every key has the same value, except [baseUrl] and the
    footer copyright; and the version of part_004 reads nothing from the
    environment. *)
Theorem config_environment (cfg : Env -> value) (e1 e2 : Env) :
  In cfg config_versions ->
  (DocusaurusConfig.isDev e1 = DocusaurusConfig.isDev e2 ->
   fullYear e1 = fullYear e2 -> cfg e1 = cfg e2)
  /\ (forall k, k <> "baseUrl" -> k <> "themeConfig" ->
                get k (cfg e1) = get k (cfg e2))
  /\ (forall k, k <> "footer" ->
                path ["themeConfig"; k] (cfg e1)
                = path ["themeConfig"; k] (cfg e2))
  /\ (forall k, k <> "copyright" ->
                path ["themeConfig"; "footer"; k] (cfg e1)
                = path ["themeConfig"; "footer"; k] (cfg e2))
  /\ Part004.config e1 = Part004.config e2.
Proof.
  intros H. split; [| split; [| split; [| split]]].
  - intros Hdev Hyear. each_version H.
    + unfold DocusaurusConfig.config. now rewrite Hdev, Hyear.
    + reflexivity.
    + unfold Part005.config. now rewrite Hyear.
  - intros k Hb Ht. each_version H.
    + unfold DocusaurusConfig.config. agree.
    + reflexivity.
    + unfold Part005.config. agree.
  - intros k Hf. each_version H.
    + eapply path_under; [reflexivity | reflexivity |].
      rewrite !path_single. agree.
    + reflexivity.
    + eapply path_under; [reflexivity | reflexivity |].
      rewrite !path_single. agree.
  - intros k Hc. each_version H.
    + eapply path_under; [reflexivity | reflexivity |].
      eapply path_under; [reflexivity | reflexivity |].
      rewrite !path_single. agree.
    + reflexivity.
    + eapply path_under; [reflexivity | reflexivity |].
      eapply path_under; [reflexivity | reflexivity |].
      rewrite !path_single. agree.
  - reflexivity.
Qed.

Lemma config_environment_witness :
  In DocusaurusConfig.config config_versions
  /\ DocusaurusConfig.isDev prod_2026 = DocusaurusConfig.isDev unset_2026
  /\ fullYear prod_2026 = fullYear unset_2026
  /\ DocusaurusConfig.config prod_2026 = DocusaurusConfig.config unset_2026
  /\ "url" <> "baseUrl" /\ "url" <> "themeConfig"
  /\ get "url" (DocusaurusConfig.config dev_2025)
     = get "url" (DocusaurusConfig.config prod_2026).
Proof.
  assert (Hin : In DocusaurusConfig.config config_versions) by now left.
  assert (Hb : "url" <> "baseUrl") by discriminate.
  assert (Ht : "url" <> "themeConfig") by discriminate.
  split; [exact Hin |]. split; [reflexivity |]. split; [reflexivity |].
  split.
  - exact (proj1 (config_environment _ prod_2026 unset_2026 Hin)
             eq_refl eq_refl).
  - split; [exact Hb |]. split; [exact Ht |].
    exact (proj1 (proj2 (config_environment _ dev_2025 prod_2026 Hin))
             "url" Hb Ht).
Defined.

(** ** The sidebar descriptor *)

(** C10: in every version of the sidebar descriptor the exported object
    has the single key [tutorialSidebar], and the first entry of that
    sidebar is the doc entry with id ['welcome'] and label ['Welcome']. *)
Theorem welcome_first (sb : value) :
  In sb sidebar_versions ->
  keys sb = ["tutorialSidebar"]
  /\ exists first rest,
       get "tutorialSidebar" sb = Some (Arr (first :: rest))
       /\ doc_entry first = Some ("welcome", "Welcome").
Proof.
  intros H. each_version H.
  all: split; [reflexivity | do 2 eexists; split; reflexivity].
Qed.

Lemma welcome_first_witness :
  In Part003.sidebars sidebar_versions
  /\ keys Part003.sidebars = ["tutorialSidebar"]
  /\ exists first rest,
       get "tutorialSidebar" Part003.sidebars = Some (Arr (first :: rest))
       /\ doc_entry first = Some ("welcome", "Welcome").
Proof.
  assert (Hin : In Part003.sidebars sidebar_versions) by (right; now left).
  split; [exact Hin |].
  exact (welcome_first Part003.sidebars Hin).
Defined.

(** C5, as stated, fails on the first entry of the sidebar: it is a doc
    entry, without items, and not a category. *)
Lemma first_entry_not_category :
  In SidebarsTs.sidebars sidebar_versions
  /\ hd_error (entries SidebarsTs.sidebars)
     = Some (Obj [("type", Str "doc"); ("id", Str "welcome");
                  ("label", Str "Welcome")])
  /\ category (Obj [("type", Str "doc"); ("id", Str "welcome");
                    ("label", Str "Welcome")]) = None
  /\ get "items" (Obj [("type", Str "doc"); ("id", Str "welcome");
                       ("label", Str "Welcome")]) = None.
Proof.
  split; [now left |]. repeat split; reflexivity.
Qed.

(** C5 (amended): every top-level entry of the sidebar is either a doc
    entry, carrying an id and a label, or a category, carrying a string
    label and an ordered list of document identifiers; the first entry is
    the doc entry, every later entry is a category, and no two categories
    share a label. *)
Theorem sidebar_shape (sb : value) :
  In sb sidebar_versions ->
  (forall v, In v (entries sb) ->
     (exists i l, doc_entry v = Some (i, l))
     \/ (exists l items, category v = Some (l, items)))
  /\ exists first rest,
       entries sb = first :: rest
       /\ (exists i l, doc_entry first = Some (i, l))
       /\ category first = None
       /\ (forall v, In v rest -> exists l items, category v = Some (l, items))
       /\ NoDup (category_labels rest).
Proof.
  intros H.
  assert (Hrest : exists first rest,
             entries sb = first :: rest
             /\ (exists i l, doc_entry first = Some (i, l))
             /\ category first = None
             /\ (forall v, In v rest ->
                   exists l items, category v = Some (l, items))
             /\ NoDup (category_labels rest)).
  { each_version H.
    all: do 2 eexists; split; [reflexivity |].
    all: split; [do 2 eexists; reflexivity |].
    all: split; [reflexivity |].
    all: split; [| apply distinct_NoDup; reflexivity].
    all: intros v Hv; simpl in Hv.
    all: repeat (destruct Hv as [<- | Hv]; [do 2 eexists; reflexivity |]).
    all: destruct Hv. }
  split; [| exact Hrest].
  destruct Hrest as [first [rest [He [Hd [_ [Hc _]]]]]].
  rewrite He. intros v [<- | Hv]; [left; exact Hd | right; now apply Hc].
Qed.

Lemma sidebar_shape_witness :
  In SidebarsTs.sidebars sidebar_versions
  /\ In (Obj [("type", Str "doc"); ("id", Str "welcome");
              ("label", Str "Welcome")]) (entries SidebarsTs.sidebars)
  /\ ((exists i l,
         doc_entry (Obj [("type", Str "doc"); ("id", Str "welcome");
                         ("label", Str "Welcome")]) = Some (i, l))
      \/ (exists l items,
            category (Obj [("type", Str "doc"); ("id", Str "welcome");
                           ("label", Str "Welcome")]) = Some (l, items))).
Proof.
  assert (Hin : In SidebarsTs.sidebars sidebar_versions) by now left.
  assert (Hv : In (Obj [("type", Str "doc"); ("id", Str "welcome");
                        ("label", Str "Welcome")])
                 (entries SidebarsTs.sidebars)) by now left.
  split; [exact Hin |]. split; [exact Hv |].
  exact (proj1 (sidebar_shape SidebarsTs.sidebars Hin) _ Hv).
Defined.

(** ** Sidebar references and the corpus *)

(** C1, as stated, fails on the first item of the Fundamentals category:
    no content file declares the id [fundamentals/widgets_overview]. *)
Lemma widgets_overview_unresolved :
  In SidebarsTs.sidebars sidebar_versions
  /\ In "fundamentals/widgets_overview" (referenced_ids SidebarsTs.sidebars)
  /\ ~ resolves "fundamentals/widgets_overview".
Proof.
  split; [now left |]. split; [right; now left |].
  intros H. apply resolvesb_spec in H. discriminate H.
Qed.

(** C1 (amended): the id of every doc entry of the sidebar is the declared
    front-matter id of a content file.  The items of the categories are
    identifiers qualified by a directory, [directory/name]; none of them is
    a declared front-matter id as it stands, and the items whose name is
    one are [fundamentals/buildcontext_and_lifecycle] and
    [architecture_and_engine/flutter_trees_and_rendering_pipeline]. *)
Theorem sidebar_references (sb : value) (i : string) :
  In sb sidebar_versions ->
  (In i (doc_ids sb) -> resolves i)
  /\ (In i (category_items sb) ->
      qualified i
      /\ ~ resolves i
      /\ (resolves (basename i)
          <-> i = "fundamentals/buildcontext_and_lifecycle"
              \/ i = "architecture_and_engine/flutter_trees_and_rendering_pipeline")).
Proof.
  intros H. split.
  - intros Hi. apply resolvesb_spec.
    assert (Hall : forallb resolvesb (doc_ids sb) = true)
      by (each_version H; reflexivity).
    rewrite forallb_forall in Hall. now apply Hall.
  - intros Hi.
    assert (Hq : qualified i).
    { apply qualifiedb_sound.
      assert (Hall : forallb qualifiedb (category_items sb) = true)
        by (each_version H; reflexivity).
      rewrite forallb_forall in Hall. now apply Hall. }
    split; [exact Hq |]. split; [now apply qualified_unresolved |].
    set (a := "fundamentals/buildcontext_and_lifecycle").
    set (b := "architecture_and_engine/flutter_trees_and_rendering_pipeline").
    assert (Hall : forallb
                     (fun j => Bool.eqb (resolvesb (basename j))
                                 (String.eqb j a || String.eqb j b))
                     (category_items sb) = true)
      by (each_version H; reflexivity).
    rewrite forallb_forall in Hall. specialize (Hall i Hi).
    apply Bool.eqb_prop in Hall.
    rewrite <- resolvesb_spec, Hall, orb_true_iff, !String.eqb_eq.
    reflexivity.
Qed.

Lemma sidebar_references_witness :
  In Part003.sidebars sidebar_versions
  /\ In "welcome" (doc_ids Part003.sidebars)
  /\ resolves "welcome"
  /\ In "architecture_and_engine/flutter_trees_and_rendering_pipeline"
       (category_items Part003.sidebars)
  /\ qualified "architecture_and_engine/flutter_trees_and_rendering_pipeline"
  /\ resolves "flutter_trees_and_rendering_pipeline".
Proof.
  assert (Hin : In Part003.sidebars sidebar_versions) by (right; now left).
  assert (Hd : In "welcome" (doc_ids Part003.sidebars)) by now left.
  assert (Hc : In "architecture_and_engine/flutter_trees_and_rendering_pipeline"
                 (category_items Part003.sidebars)).
  { simpl. tauto. }
  split; [exact Hin |]. split; [exact Hd |].
  split; [exact (proj1 (sidebar_references _ "welcome" Hin) Hd) |].
  split; [exact Hc |].
  destruct (proj2 (sidebar_references _ _ Hin) Hc) as [Hq [_ Hb]].
  split; [exact Hq |].
  apply Hb. now right.
Defined.

(** ** Front matter *)

(** Case analysis on the documents of the corpus. *)
Ltac each_document H :=
  unfold corpus in H; repeat (destruct H as [<- | H]); [.. | destruct H].

(** C3: every content file that opens with a front-matter block declares
    an id and a title in it, and no two content files declare the same
    id. *)
Theorem front_matter_ids (d : ContentFile) (fm : list (string * yaml)) :
  In d corpus ->
  front_matter d = Some fm ->
  (exists i, field "id" fm = Some (YStr i) /\ declared_id d = Some i)
  /\ (exists t, field "title" fm = Some (YStr t))
  /\ (forall d', In d' corpus -> declared_id d' = declared_id d -> d' = d).
Proof.
  intros Hd Hfm. each_document Hd; try discriminate Hfm.
  all: injection Hfm as <-.
  all: split; [eexists; split; reflexivity |].
  all: split; [eexists; reflexivity |].
  all: intros d' Hd' Hid; each_document Hd'.
  all: try reflexivity; discriminate Hid.
Qed.

Lemma front_matter_ids_witness :
  In welcome_1 corpus
  /\ front_matter welcome_1
     = Some [("id", YStr "welcome"); ("title", YStr "Welcome");
             ("sidebar_position", YInt 1)]
  /\ declared_id welcome_1 = Some "welcome"
  /\ (In welcome_0 corpus -> declared_id welcome_0 = declared_id welcome_1 ->
      welcome_0 = welcome_1).
Proof.
  assert (Hin : In welcome_1 corpus) by (right; now left).
  destruct (front_matter_ids welcome_1 _ Hin eq_refl) as [_ [_ Huniq]].
  split; [exact Hin |]. split; [reflexivity |]. split; [reflexivity |].
  exact (Huniq welcome_0).
Defined.

(** C7, as stated, fails on the document of part_000 (and on the Flutter
    trees document): its front matter declares [sidebar_label], which the
    specification does not list. *)
Lemma sidebar_label_declared :
  In part_000 corpus
  /\ In "sidebar_label" (fields part_000)
  /\ ~ In "sidebar_label" spec_fields.
Proof.
  split; [unfold corpus; simpl; tauto |].
  split; [simpl; tauto |].
  intros H. apply existsb_eqb_In in H. discriminate H.
Qed.

(** C7 (amended): every field of every front-matter block is
    [sidebar_label] or one of the fields the specification lists: id,
    title, sidebar_position, tags, description, keywords. *)
Theorem front_matter_fields (d : ContentFile) (k : string) :
  In d corpus -> In k (fields d) ->
  k = "sidebar_label" \/ In k spec_fields.
Proof.
  intros Hd Hk. each_document Hd; simpl in Hk.
  all: repeat (destruct Hk as [<- | Hk]; [simpl; tauto |]).
  all: destruct Hk.
Qed.

Lemma front_matter_fields_witness :
  In java_string_1 corpus
  /\ In "tags" (fields java_string_1)
  /\ ("tags" = "sidebar_label" \/ In "tags" spec_fields).
Proof.
  assert (Hin : In java_string_1 corpus) by (unfold corpus; simpl; tauto).
  assert (Hk : In "tags" (fields java_string_1)) by (simpl; tauto).
  split; [exact Hin |]. split; [exact Hk |].
  exact (front_matter_fields java_string_1 "tags" Hin Hk).
Defined.

(** * Further properties of the descriptors *)

(** ** Strings *)

Section Strings.

Lemma append_inj_l (p x y : string) : p ++ x = p ++ y -> x = y.
Proof.
  induction p as [| c p IH]; simpl; intros H; [assumption |].
  injection H as H. now apply IH.
Qed.

Lemma length_append (x y : string) :
  String.length (x ++ y) = (String.length x + String.length y)%nat.
Proof. induction x as [| c x IH]; simpl; [reflexivity | now rewrite IH]. Qed.

Lemma append_assoc (x y z : string) : (x ++ y) ++ z = x ++ y ++ z.
Proof. induction x as [| c x IH]; simpl; [reflexivity | now rewrite IH]. Qed.

Lemma append_inj_r (s x y : string) : x ++ s = y ++ s -> x = y.
Proof.
  revert y. induction x as [| c x IH]; intros [| d y] H; simpl in H.
  - reflexivity.
  - apply (f_equal String.length) in H. simpl in H.
    rewrite length_append in H. lia.
  - apply (f_equal String.length) in H. simpl in H.
    rewrite length_append in H. lia.
  - injection H as -> H. now rewrite (IH y H).
Qed.

(** An identifier without a slash, followed by a slash, is read back
    unambiguously. *)
Lemma plain_prefix_inj (d1 d2 p1 p2 : string) :
  segments d1 = [d1] -> segments d2 = [d2] ->
  d1 ++ "/" ++ p1 = d2 ++ "/" ++ p2 -> d1 = d2 /\ p1 = p2.
Proof.
  revert d2. induction d1 as [| c d1 IH]; intros [| c2 d2] H1 H2 H.
  - simpl in H. injection H as H. now split.
  - simpl in H. injection H as <- _. simpl in H2. discriminate H2.
  - simpl in H. injection H as -> _. simpl in H1. discriminate H1.
  - simpl in H. injection H as <- H.
    simpl in H1, H2. destruct (Ascii.eqb c "/"); [discriminate H1 |].
    destruct (segments d1) as [| h1 t1] eqn:E1;
      [now apply segments_not_nil in E1 |].
    destruct (segments d2) as [| h2 t2] eqn:E2;
      [now apply segments_not_nil in E2 |].
    injection H1 as -> ->. injection H2 as -> ->.
    destruct (IH d2 eq_refl E2 H) as [-> ->]. now split.
Qed.

(** The decimal rendering of a year reads back as that year. *)
Lemma parse_year_toString (n : Z) : parse_year (toString n) = Some n.
Proof.
  unfold parse_year, toString.
  rewrite NilZero.isi.
  - simpl. now rewrite DecimalZ.of_to.
  - destruct n; simpl; try discriminate.
    intros [= H]. now apply DecimalPos.Unsigned.to_uint_nonnil in H.
  - destruct n; simpl; try discriminate.
    intros [= H]. now apply DecimalPos.Unsigned.to_uint_nonnil in H.
Qed.

Lemma toString_inj (n m : Z) : toString n = toString m -> n = m.
Proof.
  intros H. apply (f_equal parse_year) in H.
  rewrite !parse_year_toString in H. now injection H.
Qed.

End Strings.

(** Strip a common leading character from both sides of an equation. *)
Ltac f_equal_char :=
  match goal with
  | |- String ?c _ = String ?c _ => apply (f_equal (String c))
  end.

(** ** Base address and copyright line *)

(** X1: in docusaurus.config.ts the base address is the root exactly when
    [NODE_ENV] is the string ['development']; with any other value, or
    with the variable unset, it is ['/flutter-interview-prep/']. *)
Theorem baseUrl_development (e : Env) :
  (NODE_ENV e = Some "development" ->
   string_at ["baseUrl"] (DocusaurusConfig.config e) = Some "/")
  /\ (NODE_ENV e <> Some "development" ->
      string_at ["baseUrl"] (DocusaurusConfig.config e)
      = Some "/flutter-interview-prep/").
Proof.
  assert (Hb : string_at ["baseUrl"] (DocusaurusConfig.config e)
               = Some (if DocusaurusConfig.isDev e then "/"
                       else "/flutter-interview-prep/")) by reflexivity.
  rewrite Hb. unfold DocusaurusConfig.isDev. split.
  - intros ->. reflexivity.
  - intros Hne. destruct (NODE_ENV e) as [s |]; [| reflexivity].
    destruct (String.eqb_spec s "development") as [-> | _];
      [now elim Hne | reflexivity].
Qed.

Lemma baseUrl_development_witness :
  NODE_ENV dev_2025 = Some "development"
  /\ string_at ["baseUrl"] (DocusaurusConfig.config dev_2025) = Some "/"
  /\ NODE_ENV unset_2026 <> Some "development"
  /\ string_at ["baseUrl"] (DocusaurusConfig.config unset_2026)
     = Some "/flutter-interview-prep/".
Proof.
  assert (Hu : NODE_ENV unset_2026 <> Some "development") by discriminate.
  split; [reflexivity |].
  split; [exact (proj1 (baseUrl_development dev_2025) eq_refl) |].
  split; [exact Hu |].
  exact (proj2 (baseUrl_development unset_2026) Hu).
Defined.

(** X2: in every version and every environment the base address is the
    root or the path made of the project name between two slashes. *)
Theorem baseUrl_shape (cfg : Env -> value) (e : Env) :
  In cfg config_versions ->
  exists b proj,
    string_at ["baseUrl"] (cfg e) = Some b
    /\ string_at ["projectName"] (cfg e) = Some proj
    /\ (b = "/" \/ b = "/" ++ proj ++ "/").
Proof.
  intros H. each_version H.
  - exists (if DocusaurusConfig.isDev e then "/" else "/flutter-interview-prep/").
    eexists. split; [reflexivity |]. split; [reflexivity |].
    destruct (DocusaurusConfig.isDev e); [now left | now right].
  - do 2 eexists. split; [reflexivity |]. split; [reflexivity |]. now left.
  - do 2 eexists. split; [reflexivity |]. split; [reflexivity |]. now right.
Qed.

Lemma baseUrl_shape_witness :
  In Part005.config config_versions
  /\ exists b proj,
       string_at ["baseUrl"] (Part005.config prod_2025) = Some b
       /\ string_at ["projectName"] (Part005.config prod_2025) = Some proj
       /\ (b = "/" \/ b = "/" ++ proj ++ "/").
Proof.
  assert (Hin : In Part005.config config_versions) by (right; right; now left).
  split; [exact Hin |].
  exact (baseUrl_shape Part005.config prod_2025 Hin).
Defined.

(** X3: where a version has a footer, its copyright line begins with
    ['Copyright © '] followed by the current year in decimal, and the
    lines of two evaluations are the same exactly when the years are. *)
Theorem copyright_year (cfg : Env -> value) (e1 e2 : Env) (c : string) :
  In cfg config_versions ->
  copyright (cfg e1) = Some c ->
  (exists rest, c = "Copyright © " ++ toString (fullYear e1) ++ rest)
  /\ (copyright (cfg e2) = Some c <-> fullYear e1 = fullYear e2).
Proof.
  intros H Hc. each_version H.
  - assert (Hf : forall e, copyright (DocusaurusConfig.config e)
                           = Some ("Copyright © " ++ toString (fullYear e)
                                   ++ " Narayann. Built with Docusaurus."))
      by reflexivity.
    rewrite Hf in Hc. injection Hc as <-. split; [now eexists |].
    rewrite Hf. split.
    + intros [= Heq]. apply append_inj_r in Heq.
      symmetry. now apply toString_inj.
    + now intros ->.
  - discriminate Hc.
  - assert (Hf : forall e, copyright (Part005.config e)
                           = Some ("Copyright © " ++ toString (fullYear e)
                                   ++ " Narayan N. Built with Docusaurus."))
      by reflexivity.
    rewrite Hf in Hc. injection Hc as <-. split; [now eexists |].
    rewrite Hf. split.
    + intros [= Heq]. apply append_inj_r in Heq.
      symmetry. now apply toString_inj.
    + now intros ->.
Qed.

Lemma copyright_year_witness :
  In Part005.config config_versions
  /\ copyright (Part005.config prod_2025)
     = Some "Copyright © 2025 Narayan N. Built with Docusaurus."
  /\ (copyright (Part005.config dev_2025)
      = Some "Copyright © 2025 Narayan N. Built with Docusaurus."
      <-> fullYear prod_2025 = fullYear dev_2025).
Proof.
  assert (Hin : In Part005.config config_versions) by (right; right; now left).
  split; [exact Hin |]. split; [reflexivity |].
  exact (proj2 (copyright_year Part005.config prod_2025 dev_2025 _ Hin eq_refl)).
Defined.

(** ** Links into the repository *)

(** X4: in every version the GitHub item of the navbar links to
    [https://github.com/<organizationName>/<projectName>], and the edit
    address of the docs lies under it: the string versions are that
    address followed by [/edit/main/], and the function of part_005 maps a
    docs directory and a document path to that address followed by
    [/blob/main/<directory>/<path>]. *)
Theorem repository_links (cfg : Env -> value) (e : Env) :
  In cfg config_versions ->
  exists org proj repo,
    string_at ["organizationName"] (cfg e) = Some org
    /\ string_at ["projectName"] (cfg e) = Some proj
    /\ repo = "https://github.com/" ++ org ++ "/" ++ proj
    /\ github_href (cfg e) = Some repo
    /\ (edit_url (cfg e) = Some (Str (repo ++ "/edit/main/"))
        \/ exists f,
             edit_url (cfg e) = Some (Fn f)
             /\ forall dir doc,
                  f dir doc = repo ++ "/blob/main/" ++ dir ++ "/" ++ doc).
Proof.
  intros H. each_version H.
  all: do 3 eexists.
  all: split; [reflexivity |]; split; [reflexivity |]; split; [reflexivity |].
  all: split; [reflexivity |].
  - left. reflexivity.
  - left. reflexivity.
  - right. eexists. split; [reflexivity |]. intros dir doc. reflexivity.
Qed.

Lemma repository_links_witness :
  In Part004.config config_versions
  /\ exists org proj repo,
       string_at ["organizationName"] (Part004.config unset_2026) = Some org
       /\ string_at ["projectName"] (Part004.config unset_2026) = Some proj
       /\ repo = "https://github.com/" ++ org ++ "/" ++ proj
       /\ github_href (Part004.config unset_2026) = Some repo
       /\ (edit_url (Part004.config unset_2026)
           = Some (Str (repo ++ "/edit/main/"))
           \/ exists f,
                edit_url (Part004.config unset_2026) = Some (Fn f)
                /\ forall dir doc,
                     f dir doc = repo ++ "/blob/main/" ++ dir ++ "/" ++ doc).
Proof.
  assert (Hin : In Part004.config config_versions) by (right; now left).
  split; [exact Hin |].
  exact (repository_links Part004.config unset_2026 Hin).
Defined.

(** X5: the edit-address function of part_005 gives different addresses
    to different document paths of one docs directory, and to different
    directories for one path; a directory without a slash and a path are
    both determined by the address.  A slash inside the directory can be
    moved into the path without changing the address. *)
Theorem editUrl_injective (e : Env) (f : string -> string -> string) :
  edit_url (Part005.config e) = Some (Fn f) ->
  (forall dir p1 p2, f dir p1 = f dir p2 -> p1 = p2)
  /\ (forall d1 d2 p, f d1 p = f d2 p -> d1 = d2)
  /\ (forall d1 d2 p1 p2,
        segments d1 = [d1] -> segments d2 = [d2] ->
        f d1 p1 = f d2 p2 -> d1 = d2 /\ p1 = p2)
  /\ (forall d r p, f (d ++ "/" ++ r) p = f d (r ++ "/" ++ p)).
Proof.
  intros H.
  assert (Hf : edit_url (Part005.config e)
               = Some (Fn (fun dir doc =>
                             Part005.baseGitHubUrl
                             ++ "flutter-interview-prep/blob/main/"
                             ++ dir ++ "/" ++ doc))) by reflexivity.
  rewrite Hf in H. injection H as <-.
  split; [| split; [| split]].
  - intros dir p1 p2 Heq. simpl in Heq. repeat (injection Heq as Heq).
    apply append_inj_l in Heq. now injection Heq.
  - intros d1 d2 p Heq. simpl in Heq. repeat (injection Heq as Heq).
    now apply append_inj_r in Heq.
  - intros d1 d2 p1 p2 H1 H2 Heq. simpl in Heq. repeat (injection Heq as Heq).
    apply plain_prefix_inj; [exact H1 | exact H2 | exact Heq].
  - intros d r p. simpl. repeat f_equal_char. now rewrite append_assoc.
Qed.

Lemma editUrl_injective_witness :
  exists f,
    edit_url (Part005.config unset_2026) = Some (Fn f)
    /\ (segments "docs" = ["docs"] -> segments "docs" = ["docs"] ->
        f "docs" "welcome.md" = f "docs" "welcome.md" ->
        "docs" = "docs" /\ "welcome.md" = "welcome.md")
    /\ f ("versioned_docs" ++ "/" ++ "version-1") "intro.md"
       = f "versioned_docs" ("version-1" ++ "/" ++ "intro.md").
Proof.
  eexists. split; [reflexivity |].
  pose proof (editUrl_injective unset_2026 _ eq_refl) as [_ [_ [Hi Hs]]].
  split.
  - exact (Hi "docs" "docs" "welcome.md" "welcome.md").
  - exact (Hs "versioned_docs" "version-1" "intro.md").
Defined.

(** ** Consistency inside a configuration *)

(** X6: in every version the default locale is one of the listed
    locales. *)
Theorem default_locale_listed (cfg : Env -> value) (e : Env) :
  In cfg config_versions ->
  exists d ls,
    string_at ["i18n"; "defaultLocale"] (cfg e) = Some d
    /\ path ["i18n"; "locales"] (cfg e) = Some (Arr ls)
    /\ In (Str d) ls.
Proof.
  intros H. each_version H.
  all: do 2 eexists; split; [reflexivity |]; split; [reflexivity |].
  all: now left.
Qed.

Lemma default_locale_listed_witness :
  In DocusaurusConfig.config config_versions
  /\ exists d ls,
       string_at ["i18n"; "defaultLocale"] (DocusaurusConfig.config dev_2025)
       = Some d
       /\ path ["i18n"; "locales"] (DocusaurusConfig.config dev_2025)
          = Some (Arr ls)
       /\ In (Str d) ls.
Proof.
  assert (Hin : In DocusaurusConfig.config config_versions) by now left.
  split; [exact Hin |].
  exact (default_locale_listed DocusaurusConfig.config dev_2025 Hin).
Defined.

(** X7: in every version the navbar shows the title of the site, and the
    alternative text of the logo is that title followed by [' Logo']. *)
Theorem navbar_brand (cfg : Env -> value) (e : Env) :
  In cfg config_versions ->
  exists t,
    string_at ["title"] (cfg e) = Some t
    /\ string_at ["themeConfig"; "navbar"; "title"] (cfg e) = Some t
    /\ string_at ["themeConfig"; "navbar"; "logo"; "alt"] (cfg e)
       = Some (t ++ " Logo").
Proof.
  intros H. each_version H.
  all: eexists; split; [reflexivity |]; split; reflexivity.
Qed.

Lemma navbar_brand_witness :
  In Part004.config config_versions
  /\ exists t,
       string_at ["title"] (Part004.config prod_2026) = Some t
       /\ string_at ["themeConfig"; "navbar"; "title"] (Part004.config prod_2026)
          = Some t
       /\ string_at ["themeConfig"; "navbar"; "logo"; "alt"]
            (Part004.config prod_2026)
          = Some (t ++ " Logo").
Proof.
  assert (Hin : In Part004.config config_versions) by (right; now left).
  split; [exact Hin |].
  exact (navbar_brand Part004.config prod_2026 Hin).
Defined.

(** X8: every version configures the single preset ['classic'], as a pair
    of the name and an options object whose docs read the sidebar from
    [./sidebars.ts] and whose theme reads [./src/css/custom.css]. *)
Theorem classic_preset (cfg : Env -> value) (e : Env) :
  In cfg config_versions ->
  exists o,
    get "presets" (cfg e) = Some (Arr [Arr [Str "classic"; o]])
    /\ preset_name (cfg e) = Some (Str "classic")
    /\ preset_options (cfg e) = Some o
    /\ string_at ["docs"; "sidebarPath"] o = Some "./sidebars.ts"
    /\ string_at ["theme"; "customCss"] o = Some "./src/css/custom.css".
Proof.
  intros H. each_version H.
  all: eexists; repeat split; reflexivity.
Qed.

Lemma classic_preset_witness :
  In Part005.config config_versions
  /\ exists o,
       get "presets" (Part005.config unset_2026)
       = Some (Arr [Arr [Str "classic"; o]])
       /\ preset_name (Part005.config unset_2026) = Some (Str "classic")
       /\ preset_options (Part005.config unset_2026) = Some o
       /\ string_at ["docs"; "sidebarPath"] o = Some "./sidebars.ts"
       /\ string_at ["theme"; "customCss"] o = Some "./src/css/custom.css".
Proof.
  assert (Hin : In Part005.config config_versions) by (right; right; now left).
  split; [exact Hin |].
  exact (classic_preset Part005.config unset_2026 Hin).
Defined.

(** X9: every meta tag of every version carries a non-empty content and
    is identified by a non-empty [name] or [property], never by both, and
    no two meta tags of a version share their identifier. *)
Theorem metadata_tags (cfg : Env -> value) (e : Env) :
  In cfg config_versions ->
  (forall m, In m (metadata (cfg e)) ->
     exists i c, meta_tag m = Some (i, c) /\ i <> "" /\ c <> "")
  /\ NoDup (meta_ids (metadata (cfg e))).
Proof.
  intros H. split.
  - intros m Hm.
    assert (Hall : forallb
                     (fun m => match meta_tag m with
                               | Some (i, c) =>
                                   negb (String.eqb i "")
                                   && negb (String.eqb c "")
                               | None => false
                               end)
                     (metadata (cfg e)) = true)
      by (each_version H; reflexivity).
    rewrite forallb_forall in Hall. specialize (Hall m Hm).
    destruct (meta_tag m) as [[i c] |]; [| discriminate Hall].
    apply andb_true_iff in Hall. destruct Hall as [Hi Hc].
    exists i, c. split; [reflexivity |].
    split; now apply String.eqb_neq, negb_true_iff.
  - apply distinct_NoDup. each_version H; reflexivity.
Qed.

Lemma metadata_tags_witness :
  In Part004.config config_versions
  /\ In (Obj [("property", Str "og:type"); ("content", Str "website")])
       (metadata (Part004.config unset_2026))
  /\ exists i c,
       meta_tag (Obj [("property", Str "og:type"); ("content", Str "website")])
       = Some (i, c)
       /\ i <> "" /\ c <> "".
Proof.
  assert (Hin : In Part004.config config_versions) by (right; now left).
  assert (Hm : In (Obj [("property", Str "og:type"); ("content", Str "website")])
                 (metadata (Part004.config unset_2026))).
  { simpl. tauto. }
  split; [exact Hin |]. split; [exact Hm |].
  exact (proj1 (metadata_tags Part004.config unset_2026 Hin) _ Hm).
Defined.

(** X10: every navbar and footer item of every version has a non-empty
    label and a target, and no two items of a version share a label or a
    target. *)
Theorem link_labels (cfg : Env -> value) (e : Env) :
  In cfg config_versions ->
  (forall item, In item (link_items (cfg e)) ->
     exists l t,
       get "label" item = Some (Str l) /\ l <> "" /\ target item = Some t)
  /\ NoDup (labels (link_items (cfg e)))
  /\ NoDup (targets (link_items (cfg e))).
Proof.
  intros H. split; [| split].
  - intros item Hitem.
    assert (Hall : forallb
                     (fun item =>
                        match get "label" item, target item with
                        | Some (Str l), Some _ => negb (String.eqb l "")
                        | _, _ => false
                        end)
                     (link_items (cfg e)) = true)
      by (each_version H; reflexivity).
    rewrite forallb_forall in Hall. specialize (Hall item Hitem).
    destruct (get "label" item) as [[l | | | | | |] |]; try discriminate Hall.
    destruct (target item) as [t |]; [| discriminate Hall].
    exists l, t. split; [reflexivity |]. split; [| reflexivity].
    now apply String.eqb_neq, negb_true_iff.
  - apply distinct_NoDup. each_version H; reflexivity.
  - apply distinct_NoDup. each_version H; reflexivity.
Qed.

Lemma link_labels_witness :
  In Part005.config config_versions
  /\ In (Obj [("label", Str "Intro"); ("to", Str "/docs/intro")])
       (link_items (Part005.config unset_2026))
  /\ exists l t,
       get "label" (Obj [("label", Str "Intro"); ("to", Str "/docs/intro")])
       = Some (Str l)
       /\ l <> ""
       /\ target (Obj [("label", Str "Intro"); ("to", Str "/docs/intro")])
          = Some t.
Proof.
  assert (Hin : In Part005.config config_versions) by (right; right; now left).
  assert (Hitem : In (Obj [("label", Str "Intro"); ("to", Str "/docs/intro")])
                    (link_items (Part005.config unset_2026))).
  { simpl. tauto. }
  split; [exact Hin |]. split; [exact Hitem |].
  exact (proj1 (link_labels Part005.config unset_2026 Hin) _ Hitem).
Defined.

(** ** The sidebar and its documents *)

Lemma labelled_items_spec (sb : value) (l i : string) :
  In (l, i) (labelled_items sb)
  <-> exists v xs, In v (entries sb) /\ category v = Some (l, xs) /\ In i xs.
Proof.
  unfold labelled_items. rewrite in_flat_map. split.
  - intros [v [Hv Hin]]. destruct (category v) as [[l' xs] |] eqn:E.
    + apply in_map_iff in Hin. destruct Hin as [j [[= <- <-] Hj]].
      now exists v, xs.
    + destruct Hin.
  - intros [v [xs [Hv [Hc Hi]]]]. exists v. split; [assumption |].
    rewrite Hc. now apply in_map.
Qed.

(** X11: no document identifier is listed twice in a sidebar. *)
Theorem sidebar_ids_distinct (sb : value) :
  In sb sidebar_versions -> NoDup (referenced_ids sb).
Proof.
  intros H. apply distinct_NoDup. each_version H; vm_compute; reflexivity.
Qed.

Lemma sidebar_ids_distinct_witness :
  In Part003.sidebars sidebar_versions
  /\ NoDup (referenced_ids Part003.sidebars).
Proof.
  assert (Hin : In Part003.sidebars sidebar_versions) by (right; now left).
  split; [exact Hin |].
  exact (sidebar_ids_distinct Part003.sidebars Hin).
Defined.

(** X12: the items of one category all lie in one directory, and the
    items of different categories lie in different directories: two items
    of a sidebar have the same directory exactly when their categories
    have the same label. *)
Theorem category_directories (sb : value) (l1 i1 l2 i2 : string) :
  In sb sidebar_versions ->
  In (l1, i1) (labelled_items sb) ->
  In (l2, i2) (labelled_items sb) ->
  (directory i1 = directory i2 <-> l1 = l2).
Proof.
  intros H H1 H2.
  assert (Hall : forallb
                   (fun p =>
                      forallb
                        (fun q =>
                           Bool.eqb
                             (String.eqb (directory (snd p)) (directory (snd q)))
                             (String.eqb (fst p) (fst q)))
                        (labelled_items sb))
                   (labelled_items sb) = true)
    by (each_version H; vm_compute; reflexivity).
  rewrite forallb_forall in Hall. specialize (Hall (l1, i1) H1).
  rewrite forallb_forall in Hall. specialize (Hall (l2, i2) H2).
  apply Bool.eqb_prop in Hall. simpl in Hall.
  now rewrite <- !String.eqb_eq, Hall.
Qed.

Lemma category_directories_witness :
  In Part003.sidebars sidebar_versions
  /\ In ("State Management", "state_management/bloc_and_riverpod_intro")
       (labelled_items Part003.sidebars)
  /\ In ("Advanced Topics", "advanced_topics/app_lifecycle_states")
       (labelled_items Part003.sidebars)
  /\ (directory "state_management/bloc_and_riverpod_intro"
      = directory "advanced_topics/app_lifecycle_states"
      <-> "State Management" = "Advanced Topics").
Proof.
  assert (Hin : In Part003.sidebars sidebar_versions) by (right; now left).
  assert (H1 : In ("State Management", "state_management/bloc_and_riverpod_intro")
                 (labelled_items Part003.sidebars)).
  { simpl. tauto. }
  assert (H2 : In ("Advanced Topics", "advanced_topics/app_lifecycle_states")
                 (labelled_items Part003.sidebars)).
  { simpl. tauto. }
  split; [exact Hin |]. split; [exact H1 |]. split; [exact H2 |].
  exact (category_directories _ _ _ _ _ Hin H1 H2).
Defined.

(** X13: sidebars.ts is the sidebar of part_003 cut after its second
    entry: the entries of the former open the entries of the latter, the
    entries left out are categories, and every identifier the former
    refers to is referred to by the latter. *)
Theorem sidebar_versions_nested :
  exists later,
    entries Part003.sidebars = (entries SidebarsTs.sidebars ++ later)%list
    /\ Forall (fun v => exists l xs, category v = Some (l, xs)) later
    /\ incl (referenced_ids SidebarsTs.sidebars)
         (referenced_ids Part003.sidebars).
Proof.
  eexists. split; [reflexivity |]. split.
  - repeat (constructor; [do 2 eexists; reflexivity |]). constructor.
  - intros i Hi. simpl in Hi.
    repeat (destruct Hi as [<- | Hi]; [simpl; tauto |]). destruct Hi.
Qed.

(** X14: the label a sidebar gives to a doc entry is the title declared
    by the content file the entry refers to. *)
Theorem doc_entry_titles (sb : value) (i l : string) :
  In sb sidebar_versions ->
  In (i, l) (doc_entries sb) ->
  exists d, In d corpus /\ declared_id d = Some i /\ declared_title d = Some l.
Proof.
  intros H Hil. each_version H; simpl in Hil.
  all: destruct Hil as [[= <- <-] | []].
  all: exists welcome_1; split; [right; now left | split; reflexivity].
Qed.

Lemma doc_entry_titles_witness :
  In SidebarsTs.sidebars sidebar_versions
  /\ In ("welcome", "Welcome") (doc_entries SidebarsTs.sidebars)
  /\ exists d,
       In d corpus /\ declared_id d = Some "welcome"
       /\ declared_title d = Some "Welcome".
Proof.
  assert (Hin : In SidebarsTs.sidebars sidebar_versions) by now left.
  assert (He : In ("welcome", "Welcome") (doc_entries SidebarsTs.sidebars))
    by now left.
  split; [exact Hin |]. split; [exact He |].
  exact (doc_entry_titles _ _ _ Hin He).
Defined.

(** ** Values of the front-matter fields *)

Lemma field_shape_spec (k : string) (y : yaml) :
  field_shape k y = true ->
  (In k ["id"; "title"; "sidebar_label"; "description"] ->
   exists s, y = YStr s /\ s <> "")
  /\ (k = "sidebar_position" -> exists n, y = YInt n /\ (0 < n)%Z)
  /\ (In k ["tags"; "keywords"] ->
      exists x xs, y = YSeq (x :: xs) /\ ~ In "" (x :: xs)).
Proof.
  unfold field_shape. intros H.
  destruct (existsb (String.eqb k) ["id"; "title"; "sidebar_label"; "description"])
    eqn:E1.
  { destruct y as [s | n | xs]; try discriminate H.
    apply negb_true_iff, String.eqb_neq in H.
    split; [intros _; now exists s | split].
    - intros ->. vm_compute in E1. discriminate E1.
    - intros [<- | [<- | []]]; vm_compute in E1; discriminate E1. }
  destruct (String.eqb k "sidebar_position") eqn:E2.
  { apply String.eqb_eq in E2. subst k.
    destruct y as [s | n | xs]; try discriminate H.
    apply Z.ltb_lt in H.
    split; [intros Hk; simpl in Hk; intuition discriminate | split].
    - intros _. now exists n.
    - intros Hk. simpl in Hk. intuition discriminate. }
  destruct (existsb (String.eqb k) ["tags"; "keywords"]) eqn:E3;
    [| discriminate H].
  destruct y as [s | n | [| x xs]]; try discriminate H.
  split; [| split].
  - intros Hk. apply existsb_eqb_In in Hk. congruence.
  - intros ->. discriminate E2.
  - intros _. exists x, xs. split; [reflexivity |]. intros Hin.
    rewrite forallb_forall in H. specialize (H "" Hin). discriminate H.
Qed.

(** X15: in every front-matter block of the corpus, id, title,
    sidebar_label and description are non-empty texts, sidebar_position
    is a positive integer, and tags and keywords are sequences with at
    least one element and no empty element. *)
Theorem front_matter_shapes
    (d : ContentFile) (fm : list (string * yaml)) (k : string) (y : yaml) :
  In d corpus -> front_matter d = Some fm -> In (k, y) fm ->
  (In k ["id"; "title"; "sidebar_label"; "description"] ->
   exists s, y = YStr s /\ s <> "")
  /\ (k = "sidebar_position" -> exists n, y = YInt n /\ (0 < n)%Z)
  /\ (In k ["tags"; "keywords"] ->
      exists x xs, y = YSeq (x :: xs) /\ ~ In "" (x :: xs)).
Proof.
  intros Hd Hfm Hk. apply field_shape_spec.
  assert (Hall : forallb (fun kv => field_shape (fst kv) (snd kv)) fm = true).
  { each_document Hd; try discriminate Hfm.
    all: injection Hfm as <-; reflexivity. }
  rewrite forallb_forall in Hall. exact (Hall (k, y) Hk).
Qed.

Lemma front_matter_shapes_witness :
  In part_000 corpus
  /\ In ("tags", YSeq ["Intermediate"; "Widgets"])
       [ ("id", YStr "buildcontext_and_lifecycle");
         ("title", YStr "BuildContext and Lifecycle");
         ("sidebar_label", YStr "BuildContext and Lifecycle");
         ("sidebar_position", YInt 1);
         ("tags", YSeq ["Intermediate"; "Widgets"]);
         ("description",
           YStr "Explanation of BuildContext and the widget lifecycle in Flutter.");
         ("keywords", YSeq ["Flutter"; "BuildContext"; "Lifecycle"]) ]
  /\ In "tags" ["tags"; "keywords"]
  /\ exists x xs,
       YSeq ["Intermediate"; "Widgets"] = YSeq (x :: xs) /\ ~ In "" (x :: xs).
Proof.
  assert (Hin : In part_000 corpus) by (unfold corpus; simpl; tauto).
  assert (Hk : In ("tags", YSeq ["Intermediate"; "Widgets"])
                 [ ("id", YStr "buildcontext_and_lifecycle");
                   ("title", YStr "BuildContext and Lifecycle");
                   ("sidebar_label", YStr "BuildContext and Lifecycle");
                   ("sidebar_position", YInt 1);
                   ("tags", YSeq ["Intermediate"; "Widgets"]);
                   ("description",
                     YStr "Explanation of BuildContext and the widget lifecycle in Flutter.");
                   ("keywords", YSeq ["Flutter"; "BuildContext"; "Lifecycle"]) ]).
  { simpl. tauto. }
  assert (Ht : In "tags" ["tags"; "keywords"]) by now left.
  split; [exact Hin |]. split; [exact Hk |]. split; [exact Ht |].
  exact (proj2 (proj2 (front_matter_shapes part_000 _ _ _ Hin eq_refl Hk)) Ht).
Defined.

(** ** Uses of the links module and links into the docs *)

(** X16: the configuration of part_004 takes its addresses from the links
    module: the site url and the [og:url] meta tag are both the
    [hostedCoreURL] constant, the Contact item links to [gmailLink], and
    the GitHub item to [githubLink] followed by the project name. *)
Theorem part_004_reads_links (e : Env) :
  string_at ["url"] (Part004.config e) = Some Links.hostedCoreURL
  /\ meta_content "og:url" (metadata (Part004.config e))
     = string_at ["url"] (Part004.config e)
  /\ (exists item,
        labelled "Contact" (navbar_items (Part004.config e)) = Some item
        /\ target item = Some Links.gmailLink)
  /\ (exists proj,
        string_at ["projectName"] (Part004.config e) = Some proj
        /\ github_href (Part004.config e)
           = Some (Links.githubLink ++ "/" ++ proj))
  /\ incl [Links.hostedCoreURL; Links.gmailLink; Links.githubLink]
       Links.constants.
Proof.
  split; [reflexivity |]. split; [reflexivity |].
  split; [eexists; split; reflexivity |].
  split; [eexists; split; reflexivity |].
  intros s Hs. simpl in Hs.
  repeat (destruct Hs as [<- | Hs]; [simpl; tauto |]). destruct Hs.
Qed.

(** X17: every footer item that links inside the site points to
    [/docs/<id>], where [<id>] is the front-matter id declared by a
    content file of the corpus. *)
Theorem footer_docs_links
    (cfg : Env -> value) (e : Env) (item : value) (t : string) :
  In cfg config_versions ->
  In item (footer_items (cfg e)) ->
  string_at ["to"] item = Some t ->
  exists i, t = "/docs/" ++ i /\ resolves i.
Proof.
  intros H Hitem Ht.
  assert (Hi : resolves "intro") by (now apply resolvesb_spec).
  each_version H; simpl in Hitem.
  all: repeat (destruct Hitem as [<- | Hitem];
               [first [ discriminate Ht
                      | injection Ht as <-; exists "intro"; now split ] |]).
  all: destruct Hitem.
Qed.

Lemma footer_docs_links_witness :
  In DocusaurusConfig.config config_versions
  /\ In (Obj [("label", Str "Start"); ("to", Str "/docs/intro")])
       (footer_items (DocusaurusConfig.config prod_2026))
  /\ string_at ["to"] (Obj [("label", Str "Start"); ("to", Str "/docs/intro")])
     = Some "/docs/intro"
  /\ exists i, "/docs/intro" = "/docs/" ++ i /\ resolves i.
Proof.
  assert (Hin : In DocusaurusConfig.config config_versions) by now left.
  assert (Hitem : In (Obj [("label", Str "Start"); ("to", Str "/docs/intro")])
                    (footer_items (DocusaurusConfig.config prod_2026)))
    by now left.
  split; [exact Hin |]. split; [exact Hitem |]. split; [reflexivity |].
  exact (footer_docs_links _ prod_2026 _ _ Hin Hitem eq_refl).
Defined.
